(** * Helius SDK error classification: a shallow embedding of
      [src/errors/index.ts] and the properties of its classifier.

    The TypeScript module exports an enumeration of error codes, the
    class [HeliusError], the factory [createHeliusError] and the two
    predicates [isHeliusError] and [isRetryableError].  The factory takes
    a value of type [any]; the model therefore starts with the JavaScript
    values such a caught failure can be, the conversions the code applies
    to them ([ToBoolean], [ToString], property reads) and the exceptions
    those operations raise. *)

From Stdlib Require Import String Ascii List ZArith Bool Lia.
From Stdlib Require Import DecimalString DecimalZ.
Import ListNotations.
Local Open Scope string_scope.

(** ** JavaScript values *)

Module Js.

(** The integers a JavaScript number holds exactly
    ([Number.isSafeInteger]): those below 2^53 in absolute value. *)
Definition is_safe (z : Z) : bool := (Z.abs z <? 9007199254740992)%Z.

(** Numbers.  The code compares numbers for equality, tests their
    truthiness and prints them; it does no arithmetic.  The model covers
    the safe integers, [NaN] and the two infinities (an HTTP status is an
    integer; [-0] is identified with [0], which every operation used here
    does as well).  Fractions and magnitudes from 2^53 on are outside
    the model. *)
Inductive Num : Type :=
| NaN
| Infinity (negative : bool)
| Int (z : Z) (safe : is_safe z = true).

(** The class of an object: a plain data object (object literal, parsed
    JSON) or an instance of [Error] (which is what an HTTP client throws). *)
Inductive Class : Type :=
| ClsObject
| ClsError.

(** The exception a failed operation raises. *)
Inductive Exception : Type :=
| TypeError (what : string).

(** The outcome of evaluating an expression: a value, or an exception. *)
Inductive Completion (A : Type) : Type :=
| Return (a : A)
| Throw (e : Exception).

Arguments Return {A} a.
Arguments Throw {A} e.

Definition bind {A B : Type} (c : Completion A) (k : A -> Completion B)
  : Completion B :=
  match c with
  | Return a => k a
  | Throw e => Throw e
  end.

End Js.

Import Js.

(** A numeric literal. *)
#[warnings="-notation-for-abbreviation"]
Notation int z := (Int z%Z eq_refl) (only parsing).

Declare Scope js_scope.
Delimit Scope js_scope with js.
Notation "'let*' x ':=' c 'in' k" := (bind c (fun x => k))
  (at level 10, x name, c at level 100, k at level 200) : js_scope.
Local Open Scope js_scope.

(** ** The error codes ([enum HeliusErrorCode]) *)

Inductive HeliusErrorCode : Type :=
| API_KEY_INVALID
| API_RATE_LIMIT
| API_REQUEST_FAILED
| ASSET_NOT_FOUND
| WEBHOOK_NOT_FOUND
| WEBHOOK_ADDRESS_LIMIT
| TRANSACTION_FAILED
| TRANSACTION_SIMULATE_FAILED
| INSUFFICIENT_FUNDS
| INVALID_INPUT
| NETWORK_ERROR
| UNKNOWN_ERROR.

(** What the field [code] holds at run time.  The factory fills it with
    [statusCodeMap[status] || NETWORK_ERROR]; [statusCodeMap] is an object
    literal, so a lookup under a name that [Object.prototype] defines
    ([constructor], [toString], ...) yields that inherited member, which is
    truthy and is stored as it is. *)
Inductive CodeValue : Type :=
| EnumCode (c : HeliusErrorCode)
| ProtoMember (name : string).

(** ** The class [HeliusError]

    The record is parametric in the type of JavaScript values because
    [statusCode] receives the response's [status] unconverted, and an
    instance is itself a JavaScript value. *)

Record HeliusErrorOf (V : Type) : Type := mkHeliusError {
  code : CodeValue;
  message : string;
  statusCode : V;
  retryable : bool;
  operation : option string
}.

Arguments mkHeliusError {V}.
Arguments code {V}.
Arguments message {V}.
Arguments statusCode {V}.
Arguments retryable {V}.
Arguments operation {V}.

(** The values a caught failure is made of: the primitives, objects with
    their own data properties in the order of their first binding, and
    instances of [HeliusError].  Arrays, functions, symbols and accessor
    properties are outside the model. *)
#[warnings="-register-all"]
Inductive JsValue : Type :=
| JUndefined
| JNull
| JBool (b : bool)
| JNumber (n : Num)
| JString (s : string)
| JObject (cls : Class) (props : list (string * JsValue))
| JInstance (h : HeliusErrorOf JsValue).

Definition HeliusError : Type := HeliusErrorOf JsValue.

(** ** Conversions *)

(** [ToBoolean]. *)
Definition to_boolean (v : JsValue) : bool :=
  match v with
  | JUndefined | JNull => false
  | JBool b => b
  | JNumber NaN => false
  | JNumber (Int z _) => negb (Z.eqb z 0)
  | JNumber (Infinity _) => true
  | JString s => negb (String.eqb s EmptyString)
  | JObject _ _ | JInstance _ => true
  end.

(** [a || b] on values already evaluated. *)
Definition js_or (a b : JsValue) : JsValue :=
  if to_boolean a then a else b.

(** [Number::toString]: a safe integer prints as its decimal digits. *)
Definition number_to_string (n : Num) : string :=
  match n with
  | NaN => "NaN"
  | Infinity false => "Infinity"
  | Infinity true => "-Infinity"
  | Int z _ => NilEmpty.string_of_int (Z.to_int z)
  end.

(** [Error.prototype.toString]: [name] and [msg] are the already converted
    [name] and [message] properties. *)
Definition error_to_string (name msg : string) : string :=
  if String.eqb name EmptyString then msg
  else if String.eqb msg EmptyString then name
  else name ++ ": " ++ msg.

(** The first binding of [k] in a property table. *)
Fixpoint lookup {A : Type} (k : string) (l : list (string * A)) : option A :=
  match l with
  | [] => None
  | (k', x) :: rest => if String.eqb k k' then Some x else lookup k rest
  end.

(** Does the table bind [k]? *)
Definition has_own {A : Type} (k : string) (l : list (string * A)) : bool :=
  match lookup k l with
  | Some _ => true
  | None => false
  end.

(** The property [k] of an [Error] as [Error.prototype.toString] reads
    it: [dflt] when the property is missing or [undefined], and otherwise
    its conversion by [conv]. *)
Fixpoint read_with (conv : JsValue -> Completion string)
  (k : string) (dflt : string) (l : list (string * JsValue))
  : Completion string :=
  match l with
  | [] => Return dflt
  | (k', x) :: rest =>
      if String.eqb k k'
      then match x with
           | JUndefined => Return dflt
           | _ => conv x
           end
      else read_with conv k dflt rest
  end.

(** [ToString] (the [String(v)] call, the conversion [super(message)]
    applies and the conversion of a property key).  On an object it goes
    through [OrdinaryToPrimitive]: the method [toString] is called if the
    object has a callable one, then [valueOf].  An object of the model
    inherits both unless it has an own property [toString]; that property
    is data, not a function, so it is skipped, [valueOf] answers with the
    object itself (or is data as well), and the conversion raises a
    [TypeError].  Otherwise a plain object prints through
    [Object.prototype.toString] and an [Error] through
    [Error.prototype.toString], which reads the properties [name] and
    [message] (defaults ["Error"] and the empty string) and converts them
    in turn. *)
Fixpoint to_string (v : JsValue) : Completion string :=
  match v with
  | JUndefined => Return "undefined"
  | JNull => Return "null"
  | JBool true => Return "true"
  | JBool false => Return "false"
  | JNumber n => Return (number_to_string n)
  | JString s => Return s
  | JObject cls props =>
      if has_own "toString" props
      then Throw (TypeError "Cannot convert object to primitive value")
      else
        match cls with
        | ClsObject => Return "[object Object]"
        | ClsError =>
            let* name := read_with to_string "name" "Error" props in
            let* msg := read_with to_string "message" EmptyString props in
            Return (error_to_string name msg)
        end
  | JInstance h => Return (error_to_string "HeliusError" (message h))
  end.

(** ** Property reads *)

(** [v.k], for the names the classifier reads ([response], [message],
    [status], [data], [error]).  Reading a property of [undefined] or
    [null] raises a [TypeError]; a primitive has none of these
    properties; an object answers with its own property and otherwise with
    what its prototype defines, which among these names is only
    [Error.prototype.message] (and [name]). *)
Definition get (v : JsValue) (k : string) : Completion JsValue :=
  match v with
  | JUndefined =>
      Throw (TypeError ("Cannot read properties of undefined (reading '" ++ k ++ "')"))
  | JNull =>
      Throw (TypeError ("Cannot read properties of null (reading '" ++ k ++ "')"))
  | JBool _ | JNumber _ | JString _ => Return JUndefined
  | JObject cls props =>
      match lookup k props with
      | Some x => Return x
      | None =>
          match cls with
          | ClsObject => Return JUndefined
          | ClsError =>
              if String.eqb k "message" then Return (JString EmptyString)
              else if String.eqb k "name" then Return (JString "Error")
              else Return JUndefined
          end
      end
  | JInstance h =>
      if String.eqb k "message" then Return (JString (message h))
      else if String.eqb k "name" then Return (JString "HeliusError")
      else Return JUndefined
  end.

(** [v?.k]: [undefined] when [v] is [undefined] or [null]. *)
Definition get_optional (v : JsValue) (k : string) : Completion JsValue :=
  match v with
  | JUndefined | JNull => Return JUndefined
  | _ => get v k
  end.

(** ** Built-in methods the classifier calls *)

(** [String.prototype.includes]: does [needle] occur in [hay]? *)
Fixpoint string_includes (hay needle : string) : bool :=
  if String.prefix needle hay then true
  else match hay with
       | EmptyString => false
       | String _ rest => string_includes rest needle
       end.

(** The method call [v.includes(needle)] with a string argument.  Only a
    string has the method among the values of the model; on anything else
    the call [v.includes(...)] raises. *)
Definition call_includes (v : JsValue) (needle : string) : Completion bool :=
  match v with
  | JString s => Return (string_includes s needle)
  | JUndefined | JNull =>
      Throw (TypeError "Cannot read properties of undefined (reading 'includes')")
  | _ => Throw (TypeError "errorMessage.includes is not a function")
  end.

(** [SameValueZero] on numbers. *)
Definition same_value_zero (a b : Num) : bool :=
  match a, b with
  | NaN, NaN => true
  | Infinity x, Infinity y => Bool.eqb x y
  | Int x _, Int y _ => Z.eqb x y
  | _, _ => false
  end.

(** [arr.includes(v)] for an array literal of numbers: [SameValueZero]
    relates a number only to a number. *)
Definition array_includes (arr : list Num) (v : JsValue) : bool :=
  match v with
  | JNumber n => existsb (same_value_zero n) arr
  | _ => false
  end.

(** ** [class HeliusError] *)

(** The third argument of the constructor. *)
Record Options : Type := mkOptions {
  opt_statusCode : JsValue;
  opt_retryable : option bool;
  opt_operation : option string
}.

(** The default [{}]. *)
Definition no_options : Options := mkOptions JUndefined None None.

(** [{ operation }]. *)
Definition only_operation (op : option string) : Options :=
  mkOptions JUndefined None op.

(** [new HeliusError(code, message, options)] at the declared type of
    the constructor: [super(message)] stores the string it is given. *)
Definition new_HeliusError (c : CodeValue) (msg : string) (options : Options)
  : HeliusError :=
  {| code := c;
     message := msg;
     statusCode := opt_statusCode options;
     retryable := match opt_retryable options with
                  | Some b => b || false
                  | None => false
                  end;
     operation := opt_operation options |}.

(** What [super(message)] stores for a message of any type:
    [ToString(message)], which can raise, unless [message] is [undefined],
    in which case the instance inherits the empty
    [Error.prototype.message]. *)
Definition super_message (msg : JsValue) : Completion string :=
  match msg with
  | JUndefined => Return EmptyString
  | _ => to_string msg
  end.

(** [new HeliusError(code, message, options)] as the factory calls it,
    with a message of type [any]. *)
Definition new_HeliusError_any
  (c : CodeValue) (msg : JsValue) (options : Options)
  : Completion HeliusError :=
  let* text := super_message msg in
  Return (new_HeliusError c text options).

Definition isRetryable (h : HeliusError) : bool := retryable h.

Definition getUserMessage (h : HeliusError) : string :=
  match code h with
  | EnumCode API_KEY_INVALID =>
      "Invalid API key. Please check your API key in the Helius dashboard."
  | EnumCode API_RATE_LIMIT =>
      "Rate limit exceeded. Please wait before making more requests."
  | EnumCode WEBHOOK_ADDRESS_LIMIT =>
      "Webhook address limit exceeded. Maximum 100,000 addresses per webhook."
  | EnumCode INSUFFICIENT_FUNDS =>
      "Insufficient funds for this transaction."
  | _ => message h
  end.

(** ** [createHeliusError] *)

(** The object literal [statusCodeMap]; its keys are the numeric literals
    as property names. *)
Definition statusCodeMap : list (string * HeliusErrorCode) :=
  [ ("401", API_KEY_INVALID);
    ("429", API_RATE_LIMIT);
    ("404", ASSET_NOT_FOUND);
    ("500", API_REQUEST_FAILED);
    ("502", API_REQUEST_FAILED);
    ("503", API_REQUEST_FAILED) ].

(** What an object literal inherits from [Object.prototype]. *)
Definition object_prototype_members : list string :=
  [ "constructor"; "hasOwnProperty"; "isPrototypeOf"; "propertyIsEnumerable";
    "toLocaleString"; "toString"; "valueOf"; "__proto__";
    "__defineGetter__"; "__defineSetter__";
    "__lookupGetter__"; "__lookupSetter__" ].

(** [statusCodeMap[key]] for a property key; [None] is [undefined]. *)
Definition statusCodeMap_get (key : string) : option CodeValue :=
  match lookup key statusCodeMap with
  | Some c => Some (EnumCode c)
  | None =>
      if existsb (String.eqb key) object_prototype_members
      then Some (ProtoMember key)
      else None
  end.

(** [statusCodeMap[key] || HeliusErrorCode.NETWORK_ERROR]: every code is a
    non-empty string and every inherited member an object, so only
    [undefined] gives way to the default. *)
Definition code_of_key (key : string) : CodeValue :=
  match statusCodeMap_get key with
  | Some c => c
  | None => EnumCode NETWORK_ERROR
  end.

(** [statusCodeMap[status] || HeliusErrorCode.NETWORK_ERROR]: the status
    is first converted to a property key, which can raise. *)
Definition transport_code (status : JsValue) : Completion CodeValue :=
  let* key := to_string status in
  Return (code_of_key key).

Definition retryable_statuses : list Num := [int 429; int 500; int 502; int 503].

(** The factory.  [error.response] is read once here and three times in
    the source; reads have no effect, so the value is the same each time.
    Likewise [error.message] is read whether or not the body's [error] is
    truthy: the read cannot fail once [error.response] has succeeded.
    [String(error)] is evaluated only when [error.message] is falsy, as
    [||] does. *)
Definition createHeliusError (error : JsValue) (operation : option string)
  : Completion HeliusError :=
  let* response := get error "response" in
  if to_boolean response then
    let* status := get response "status" in
    let* data := get response "data" in
    let* body_error := get_optional data "error" in
    let* own_message := get error "message" in
    let message := js_or body_error own_message in
    let* c := transport_code status in
    new_HeliusError_any
      c message
      (mkOptions status
                 (Some (array_includes retryable_statuses status))
                 operation)
  else
    let* own_message := get error "message" in
    let* errorMessage :=
      (if to_boolean own_message then Return own_message
       else let* text := to_string error in Return (JString text)) in
    let* addresses := call_includes errorMessage "100,000 addresses" in
    let* limit := (if addresses then Return true
                   else call_includes errorMessage "address limit") in
    if limit then
      new_HeliusError_any (EnumCode WEBHOOK_ADDRESS_LIMIT) errorMessage
                          (only_operation operation)
    else
      let* funds := call_includes errorMessage "insufficient funds" in
      if funds then
        new_HeliusError_any (EnumCode INSUFFICIENT_FUNDS) errorMessage
                            (only_operation operation)
      else
        let* simulation := call_includes errorMessage "simulation failed" in
        if simulation then
          new_HeliusError_any (EnumCode TRANSACTION_SIMULATE_FAILED)
                              errorMessage (only_operation operation)
        else
          new_HeliusError_any (EnumCode UNKNOWN_ERROR) errorMessage
                              (only_operation operation).

(** ** The predicates *)

(** [error instanceof HeliusError]. *)
Definition isHeliusError (error : JsValue) : bool :=
  match error with
  | JInstance _ => true
  | _ => false
  end.

(** The method call [error.isRetryable()]. *)
Definition call_isRetryable (error : JsValue) : Completion bool :=
  match error with
  | JInstance h => Return (isRetryable h)
  | JUndefined | JNull =>
      Throw (TypeError "Cannot read properties of undefined (reading 'isRetryable')")
  | _ => Throw (TypeError "error.isRetryable is not a function")
  end.

(** [isHeliusError(error) && error.isRetryable()]. *)
Definition isRetryableError (error : JsValue) : Completion bool :=
  if isHeliusError error then call_isRetryable error else Return false.

(** ** The vocabulary of the specification *)

(** The input carries a response descriptor: the test [if (error.response)]
    of the factory succeeds on the value [response]. *)
Definition carries_response (error response : JsValue) : Prop :=
  get error "response" = Return response /\ to_boolean response = true.

(** The input carries no response descriptor: the test fails. *)
Definition no_response (error : JsValue) : Prop :=
  exists r, get error "response" = Return r /\ to_boolean r = false.

(** The plain message the factory derives: [error.message || String(error)]. *)
Definition derived_message (error : JsValue) : Completion JsValue :=
  let* own_message := get error "message" in
  if to_boolean own_message then Return own_message
  else let* text := to_string error in Return (JString text).

(** The message the transport branch hands to the constructor:
    [error.response.data?.error || error.message]. *)
Definition transport_message (error response : JsValue)
  : Completion JsValue :=
  let* data := get response "data" in
  let* body_error := get_optional data "error" in
  let* own_message := get error "message" in
  Return (js_or body_error own_message).

(** The string the constructor stores for it. *)
Definition transport_text (error response : JsValue) : Completion string :=
  let* msg := transport_message error response in
  super_message msg.

(** [needle] occurs in [hay]. *)
Definition contains (hay needle : string) : Prop :=
  exists before after, hay = before ++ needle ++ after.

(** The status table of the specification, on numbers. *)
Definition kind_of_status (n : Num) : HeliusErrorCode :=
  match n with
  | Int z _ =>
      if Z.eqb z 401 then API_KEY_INVALID
      else if Z.eqb z 429 then API_RATE_LIMIT
      else if Z.eqb z 404 then ASSET_NOT_FOUND
      else if Z.eqb z 500 then API_REQUEST_FAILED
      else if Z.eqb z 502 then API_REQUEST_FAILED
      else if Z.eqb z 503 then API_REQUEST_FAILED
      else NETWORK_ERROR
  | _ => NETWORK_ERROR
  end.

(** The whitelist of retryable statuses. *)
Definition whitelisted (v : JsValue) : Prop :=
  v = JNumber (int 429) \/ v = JNumber (int 500) \/
  v = JNumber (int 502) \/ v = JNumber (int 503).

(** The business rules of the specification, in priority order: the
    substrings of a rule and the kind it yields. *)
Definition business_rules : list (list string * HeliusErrorCode) :=
  [ (["100,000 addresses"; "address limit"], WEBHOOK_ADDRESS_LIMIT);
    (["insufficient funds"], INSUFFICIENT_FUNDS);
    (["simulation failed"], TRANSACTION_SIMULATE_FAILED) ].

(** The kind of the first rule one of whose substrings occurs in [m]. *)
Fixpoint first_match (rules : list (list string * HeliusErrorCode)) (m : string)
  : option HeliusErrorCode :=
  match rules with
  | [] => None
  | (patterns, kind) :: rest =>
      if existsb (string_includes m) patterns then Some kind
      else first_match rest m
  end.

(** How a [HeliusError] comes to be: through the factory, or through the
    constructor called directly. *)
Inductive Origin : Type :=
| ByFactory (error : JsValue) (operation : option string)
| ByConstructor (c : CodeValue) (msg : JsValue) (options : Options).

Definition construct (o : Origin) : Completion HeliusError :=
  match o with
  | ByFactory error op => createHeliusError error op
  | ByConstructor c msg options => new_HeliusError_any c msg options
  end.

(** [undefined] and [null], the two values without properties. *)
Definition nullish (v : JsValue) : bool :=
  match v with
  | JUndefined | JNull => true
  | _ => false
  end.

(** The kind the business rules give to a message; UNKNOWN_ERROR when no
    rule matches. *)
Definition business_kind (m : string) : HeliusErrorCode :=
  match first_match business_rules m with
  | Some kind => kind
  | None => UNKNOWN_ERROR
  end.

(** The derived message as the specification words it: the failure's
    message field, or the failure's string conversion if no message field
    exists.  ([derived_message] is what the code computes.) *)
Definition stated_message (error : JsValue) : Completion JsValue :=
  let* own_message := get error "message" in
  match own_message with
  | JUndefined => let* text := to_string error in Return (JString text)
  | _ => Return own_message
  end.

(** No object inside the value has an own property named [toString]. *)
Fixpoint plain (v : JsValue) : bool :=
  match v with
  | JObject _ props =>
      negb (has_own "toString" props) &&
      forallb (fun p => plain (snd p)) props
  | _ => true
  end.

(** [new Error(msg)]. *)
Definition thrown (msg : string) : JsValue :=
  JObject ClsError [("message", JString msg)].

(** Sample failures, as an HTTP client or the SDK raises them. *)
Definition sample_503 : JsValue :=
  JObject ClsError
    [ ("message", JString "Request failed with status code 503");
      ("response", JObject ClsObject
                     [ ("status", JNumber (int 503));
                       ("data", JObject ClsObject
                                  [("error", JString "insufficient funds")]) ]) ].

Definition sample_404 : JsValue :=
  JObject ClsError
    [ ("message", JString "insufficient funds");
      ("response", JObject ClsObject [("status", JNumber (int 404))]) ].

Definition sample_no_status : JsValue :=
  JObject ClsError
    [ ("message", JString "insufficient funds");
      ("response", JObject ClsObject [("data", JNull)]) ].

Definition sample_string_status : JsValue :=
  JObject ClsError
    [ ("message", JString "Too many requests");
      ("response", JObject ClsObject [("status", JString "429")]) ].

Definition sample_both : JsValue :=
  JObject ClsError
    [("message", JString "address limit reached: insufficient funds")].

(** An [Error] constructed with the empty string as message. *)
Definition sample_empty_message : JsValue :=
  JObject ClsError [("message", JString EmptyString)].

(** The string each member of [enum HeliusErrorCode] stands for: the
    value stored in [code], compared by the [switch] of [getUserMessage]
    and tested for truthiness by [statusCodeMap[status] || ...]. *)
Definition code_string (c : HeliusErrorCode) : string :=
  match c with
  | API_KEY_INVALID => "API_KEY_INVALID"
  | API_RATE_LIMIT => "API_RATE_LIMIT"
  | API_REQUEST_FAILED => "API_REQUEST_FAILED"
  | ASSET_NOT_FOUND => "ASSET_NOT_FOUND"
  | WEBHOOK_NOT_FOUND => "WEBHOOK_NOT_FOUND"
  | WEBHOOK_ADDRESS_LIMIT => "WEBHOOK_ADDRESS_LIMIT"
  | TRANSACTION_FAILED => "TRANSACTION_FAILED"
  | TRANSACTION_SIMULATE_FAILED => "TRANSACTION_SIMULATE_FAILED"
  | INSUFFICIENT_FUNDS => "INSUFFICIENT_FUNDS"
  | INVALID_INPUT => "INVALID_INPUT"
  | NETWORK_ERROR => "NETWORK_ERROR"
  | UNKNOWN_ERROR => "UNKNOWN_ERROR"
  end.

(** A thrown value that is not an object: a boolean, a number or a
    string. *)
Definition primitive (v : JsValue) : bool :=
  match v with
  | JBool _ | JNumber _ | JString _ => true
  | _ => false
  end.

(** A JSON-RPC failure: the body's [error] is an object. *)
Definition sample_rpc_error : JsValue :=
  JObject ClsError
    [ ("message", JString "Request failed with status code 500");
      ("response",
       JObject ClsObject
         [ ("status", JNumber (int 500));
           ("data",
            JObject ClsObject
              [("error",
                JObject ClsObject
                  [ ("code", JNumber (int (-32603)));
                    ("message", JString "Internal error") ])]) ]) ].

(** A rate-limited request, classified. *)
Definition sample_rate_limited : HeliusError :=
  mkHeliusError (EnumCode API_RATE_LIMIT) "Too many requests"
    (JNumber (int 429)) true (Some "getAsset").

(** * Properties *)

(** ** Strings *)

Lemma prefix_append (p s : string) :
  String.prefix p s = true <-> exists rest, s = p ++ rest.
Proof.
  revert s; induction p as [|a p IH]; intros s.
  - split; [intros _; exists s; reflexivity|intros _; destruct s; reflexivity].
  - destruct s as [|b s]; simpl.
    + split; [discriminate|intros [rest H]; discriminate].
    + destruct (Ascii.ascii_dec a b) as [->|Hab].
      * rewrite IH. split; intros [rest H]; exists rest.
        -- now subst.
        -- now injection H.
      * split; [discriminate|].
        intros [rest H]. injection H as H1 _. now elim Hab.
Qed.

Lemma string_includes_contains (hay needle : string) :
  string_includes hay needle = true <-> contains hay needle.
Proof.
  unfold contains. induction hay as [|a hay IH].
  - cbn [string_includes]. destruct (String.prefix needle EmptyString) eqn:E.
    + split; [intros _|reflexivity].
      apply prefix_append in E as [rest E]. exists EmptyString, rest. exact E.
    + split; [discriminate|].
      intros (before & after & H).
      destruct before; [|discriminate].
      assert (P : String.prefix needle EmptyString = true)
        by (apply prefix_append; exists after; exact H).
      congruence.
  - cbn [string_includes].
    destruct (String.prefix needle (String a hay)) eqn:E.
    + split; [intros _|reflexivity].
      apply prefix_append in E as [rest E]. exists EmptyString, rest. exact E.
    + rewrite IH. split.
      * intros (before & after & H). exists (String a before), after.
        simpl. now rewrite H.
      * intros (before & after & H). destruct before as [|b before].
        -- assert (P : String.prefix needle (String a hay) = true)
             by (apply prefix_append; exists after; exact H).
           congruence.
        -- injection H as _ H. now exists before, after.
Qed.

(** ** Property reads never fail on a value that is neither [undefined]
       nor [null] *)

Lemma get_returns (v : JsValue) (k : string) :
  nullish v = false -> exists x, get v k = Return x.
Proof.
  destruct v as [| | b | n | s | cls props | h]; simpl; try discriminate;
    intros _; eauto.
  - destruct (lookup k props); eauto.
    destruct cls; eauto.
    destruct (String.eqb k "message"); eauto.
    destruct (String.eqb k "name"); eauto.
  - destruct (String.eqb k "message"); eauto.
    destruct (String.eqb k "name"); eauto.
Qed.

Lemma get_not_nullish (v x : JsValue) (k : string) :
  get v k = Return x -> nullish v = false.
Proof. destruct v; simpl; intros H; try reflexivity; discriminate. Qed.

Lemma truthy_not_nullish (v : JsValue) :
  to_boolean v = true -> nullish v = false.
Proof. destruct v; simpl; intros H; try reflexivity; discriminate. Qed.

Lemma get_optional_returns (v : JsValue) (k : string) :
  exists x, get_optional v k = Return x.
Proof.
  destruct (nullish v) eqn:E.
  - destruct v; try discriminate; simpl; eauto.
  - destruct (get_returns v k E) as [x H].
    exists x. destruct v; try discriminate; exact H.
Qed.

(** ** Values without an own [toString] convert to a string *)

Lemma read_with_returns (conv : JsValue -> Completion string)
  (k dflt : string) (l : list (string * JsValue)) :
  (forall p, In p l -> exists s, conv (snd p) = Return s) ->
  exists s, read_with conv k dflt l = Return s.
Proof.
  induction l as [|[k' x] rest IH]; intros H; cbn [read_with]; [eauto|].
  destruct (String.eqb k k').
  - destruct (H (k', x) (or_introl eq_refl)) as [s Hs]. cbn [snd] in Hs.
    destruct x; eauto.
  - apply IH. intros p Hp. apply H. now right.
Qed.

Lemma plain_to_string : forall v, plain v = true -> exists s, to_string v = Return s.
Proof.
  fix IH 1. intros [| | [|] | n | s | cls props | h] Hp;
    cbn [to_string]; eauto.
  cbn [plain] in Hp. apply andb_true_iff in Hp as [Ho Ha].
  apply negb_true_iff in Ho. rewrite Ho.
  destruct cls; [eauto|].
  assert (Hc : forall p, In p props -> exists s, to_string (snd p) = Return s).
  { clear Ho. revert props Ha. fix IHl 1. intros [|[k x] rest] Ha p Hin.
    - destruct Hin.
    - cbn [forallb snd] in Ha. apply andb_true_iff in Ha as [Hx Hr].
      destruct Hin as [<-|Hin].
      + cbn [snd]. exact (IH x Hx).
      + exact (IHl rest Hr p Hin). }
  destruct (read_with_returns to_string "name" "Error" props Hc) as [n ->].
  destruct (read_with_returns to_string "message" EmptyString props Hc)
    as [m ->].
  cbn [bind]. eauto.
Qed.

Lemma plain_lookup (k : string) (props : list (string * JsValue)) (x : JsValue) :
  forallb (fun p => plain (snd p)) props = true ->
  lookup k props = Some x -> plain x = true.
Proof.
  induction props as [|[k' y] rest IH]; cbn [lookup forallb snd];
    [discriminate|].
  intros Ha. apply andb_true_iff in Ha as [Hy Hr].
  destruct (String.eqb k k'); [now intros [= <-]|now apply IH].
Qed.

Lemma plain_get (v x : JsValue) (k : string) :
  plain v = true -> get v k = Return x -> plain x = true.
Proof.
  destruct v as [| | b | n | s | cls props | h]; cbn [get];
    try discriminate; try (now intros _ [= <-]).
  - cbn [plain]. intros Hp. apply andb_true_iff in Hp as [_ Ha].
    destruct (lookup k props) as [y|] eqn:E.
    + intros [= <-]. exact (plain_lookup k props y Ha E).
    + destruct cls; [now intros [= <-]|].
      destruct (String.eqb k "message"); [now intros [= <-]|].
      destruct (String.eqb k "name"); now intros [= <-].
  - intros _. destruct (String.eqb k "message"); [now intros [= <-]|].
    destruct (String.eqb k "name"); now intros [= <-].
Qed.

Lemma plain_get_optional (v x : JsValue) (k : string) :
  plain v = true -> get_optional v k = Return x -> plain x = true.
Proof.
  destruct v; cbn [get_optional]; try (now intros _ [= <-]);
    apply plain_get.
Qed.

Lemma plain_super_message (msg : JsValue) :
  plain msg = true -> exists text, super_message msg = Return text.
Proof.
  intros Hp. destruct (plain_to_string msg Hp) as [s Hs].
  destruct msg; cbn [super_message]; eauto.
Qed.

(** ** The table lookup on a numeric status *)

(** A number is determined by its integer. *)
Lemma Int_ext (z1 z2 : Z) (p1 : is_safe z1 = true) (p2 : is_safe z2 = true) :
  z1 = z2 -> Int z1 p1 = Int z2 p2.
Proof.
  intros ->. f_equal. apply Eqdep_dec.UIP_dec, Bool.bool_dec.
Qed.

(** The decimal printing of an integer determines the integer. *)
Lemma number_key_parses (z : Z) (p : is_safe z = true) (s : string) :
  number_to_string (Int z p) = s ->
  option_map Z.of_int (NilEmpty.int_of_string s) = Some z.
Proof.
  simpl. intros <-. rewrite NilEmpty.isi. simpl. now rewrite DecimalZ.of_to.
Qed.

Ltac number_key_cases z :=
  repeat match goal with
    | |- context [String.eqb (number_to_string (Int z ?p)) ?k] =>
        destruct (String.eqb_spec (number_to_string (Int z p)) k) as [E|_];
        [apply number_key_parses in E; vm_compute in E;
         first [discriminate E | injection E as E; lia]|]
    end.

Lemma statusCodeMap_number (n : Num) :
  statusCodeMap_get (number_to_string n) =
  match kind_of_status n with
  | NETWORK_ERROR => None
  | c => Some (EnumCode c)
  end.
Proof.
  destruct n as [| [|] | z p]; try reflexivity.
  unfold kind_of_status.
  destruct (Z.eqb_spec z 401) as [->|N1]; [reflexivity|].
  destruct (Z.eqb_spec z 429) as [->|N2]; [reflexivity|].
  destruct (Z.eqb_spec z 404) as [->|N3]; [reflexivity|].
  destruct (Z.eqb_spec z 500) as [->|N4]; [reflexivity|].
  destruct (Z.eqb_spec z 502) as [->|N5]; [reflexivity|].
  destruct (Z.eqb_spec z 503) as [->|N6]; [reflexivity|].
  unfold statusCodeMap_get, statusCodeMap, object_prototype_members.
  cbn [lookup existsb orb].
  number_key_cases z. reflexivity.
Qed.

Lemma transport_code_number (n : Num) :
  transport_code (JNumber n) = Return (EnumCode (kind_of_status n)).
Proof.
  unfold transport_code, code_of_key. cbn [to_string bind].
  rewrite statusCodeMap_number. now destruct (kind_of_status n).
Qed.

Lemma array_includes_whitelisted (v : JsValue) :
  array_includes retryable_statuses v = true <-> whitelisted v.
Proof.
  unfold whitelisted, retryable_statuses. split.
  - destruct v as [| | b | [| neg | z p] | s | cls props | h]; simpl;
      try discriminate.
    rewrite !orb_true_iff, !Z.eqb_eq.
    intros [E|[E|[E|[E|F]]]]; try discriminate F;
      [left|right; left|right; right; left|right; right; right];
      f_equal; now apply Int_ext.
  - intros [->|[->|[->| ->]]]; reflexivity.
Qed.

(** ** The transport branch *)

Lemma status_returns (response : JsValue) :
  to_boolean response = true -> exists status, get response "status" = Return status.
Proof. intros H. apply get_returns, truthy_not_nullish, H. Qed.

(** The message of the transport branch is always found; only its
    conversion can fail. *)
Lemma transport_message_returns (error response : JsValue) :
  carries_response error response ->
  exists msg, transport_message error response = Return msg.
Proof.
  intros [Hr Ht]. unfold transport_message.
  destruct (get_returns response "data" (truthy_not_nullish _ Ht)) as [d ->].
  cbn [bind].
  destruct (get_optional_returns d "error") as [b ->]. cbn [bind].
  destruct (get_returns error "message" (get_not_nullish _ _ _ Hr)) as [m ->].
  cbn [bind]. eauto.
Qed.

(** The factory on a failure that carries a response: the code of the
    status, then the constructor on the message. *)
Lemma transport_unfold (error response status : JsValue) (op : option string) :
  carries_response error response ->
  get response "status" = Return status ->
  createHeliusError error op =
  (let* c := transport_code status in
   let* text := transport_text error response in
   Return (new_HeliusError c text
             (mkOptions status
                (Some (array_includes retryable_statuses status)) op))).
Proof.
  intros [Hr Ht] Hs. unfold createHeliusError, transport_text,
    transport_message, new_HeliusError_any.
  rewrite Hr. cbn [bind]. rewrite Ht, Hs. cbn [bind].
  destruct (get_returns response "data" (truthy_not_nullish _ Ht)) as [d ->].
  cbn [bind].
  destruct (get_optional_returns d "error") as [b ->]. cbn [bind].
  destruct (get_returns error "message" (get_not_nullish _ _ _ Hr)) as [m ->].
  cbn [bind]. reflexivity.
Qed.

(** What the factory returns when the response test succeeds and the two
    conversions do. *)
Lemma transport_branch
  (error response status : JsValue) (c : CodeValue) (text : string)
  (op : option string) :
  carries_response error response ->
  get response "status" = Return status ->
  transport_code status = Return c ->
  transport_text error response = Return text ->
  createHeliusError error op =
  Return (new_HeliusError c text
            (mkOptions status
               (Some (array_includes retryable_statuses status)) op)).
Proof.
  intros Hc Hs Hk Ht. rewrite (transport_unfold _ _ _ op Hc Hs).
  rewrite Hk. cbn [bind]. rewrite Ht. reflexivity.
Qed.

(** Conversely, a result of the transport branch was built that way. *)
Lemma transport_inversion
  (error response status : JsValue) (op : option string) (h : HeliusError) :
  carries_response error response ->
  get response "status" = Return status ->
  createHeliusError error op = Return h ->
  exists c text,
    transport_code status = Return c /\
    transport_text error response = Return text /\
    h = new_HeliusError c text
          (mkOptions status
             (Some (array_includes retryable_statuses status)) op).
Proof.
  intros Hc Hs H. rewrite (transport_unfold _ _ _ op Hc Hs) in H.
  destruct (transport_code status) as [c|e]; [|discriminate H].
  cbn [bind] in H.
  destruct (transport_text error response) as [text|e]; [|discriminate H].
  cbn [bind] in H. injection H as <-. eauto.
Qed.

(** C2.  An input that carries a response descriptor with a numeric status
    is classified by the fixed table (401 -> API_KEY_INVALID, 429 ->
    API_RATE_LIMIT, 404 -> ASSET_NOT_FOUND, 500/502/503 ->
    API_REQUEST_FAILED, any other number -> NETWORK_ERROR); the result is
    retryable exactly when the status is 429, 500, 502 or 503, and carries
    the status as [statusCode] and the given operation.  (The hypothesis
    on [transport_text] says that the message handed to the constructor
    converts to a string; the factory raises when it does not.) *)
Theorem numeric_status_classified
  (error response : JsValue) (n : Num) (text : string) (op : option string) :
  carries_response error response ->
  get response "status" = Return (JNumber n) ->
  transport_text error response = Return text ->
  exists h,
    createHeliusError error op = Return h /\
    code h = EnumCode (kind_of_status n) /\
    (retryable h = true <-> whitelisted (JNumber n)) /\
    statusCode h = JNumber n /\
    operation h = op.
Proof.
  intros Hc Hs Ht.
  rewrite (transport_branch _ _ _ _ _ op Hc Hs (transport_code_number n) Ht).
  eexists; split; [reflexivity|].
  cbn [new_HeliusError code retryable statusCode operation
       opt_statusCode opt_retryable opt_operation].
  rewrite orb_false_r.
  repeat split; try apply array_includes_whitelisted; auto.
Qed.

Lemma numeric_status_classified_witness :
  exists h,
    createHeliusError sample_503 (Some "getAsset") = Return h /\
    code h = EnumCode API_REQUEST_FAILED /\
    (retryable h = true <-> whitelisted (JNumber (int 503))) /\
    statusCode h = JNumber (int 503) /\
    operation h = Some "getAsset".
Proof.
  apply (numeric_status_classified sample_503
           (JObject ClsObject
              [ ("status", JNumber (int 503));
                ("data", JObject ClsObject
                           [("error", JString "insufficient funds")]) ])
           (int 503) "insufficient funds" (Some "getAsset")).
  - split; reflexivity.
  - reflexivity.
  - reflexivity.
Defined.

(** C4.  When the input carries a response descriptor the factory returns
    from the transport branch: the kind is the table's answer for the
    status and depends on nothing else, so that any other failure whose
    response has the same status gets the same kind, whatever the two
    messages say.  (The hypotheses on [transport_code] and
    [transport_text] say that the status converts to a property key and
    the message to a string; the factory raises when one does not.) *)
Theorem transport_takes_priority
  (error response status : JsValue) (c : CodeValue) (text : string)
  (op : option string) :
  carries_response error response ->
  get response "status" = Return status ->
  transport_code status = Return c ->
  transport_text error response = Return text ->
  exists h,
    createHeliusError error op = Return h /\
    code h = c /\
    statusCode h = status /\
    (forall error' response' text' op',
       carries_response error' response' ->
       get response' "status" = Return status ->
       transport_text error' response' = Return text' ->
       exists h', createHeliusError error' op' = Return h' /\
                  code h' = code h).
Proof.
  intros Hc Hs Hk Ht.
  rewrite (transport_branch _ _ _ _ _ op Hc Hs Hk Ht).
  eexists. split; [reflexivity|]. split; [reflexivity|].
  split; [reflexivity|].
  intros error' response' text' op' Hc' Hs' Ht'.
  rewrite (transport_branch _ _ _ _ _ op' Hc' Hs' Hk Ht').
  eexists. split; reflexivity.
Qed.

Lemma transport_takes_priority_witness :
  exists h,
    createHeliusError sample_404 None = Return h /\
    code h = EnumCode ASSET_NOT_FOUND.
Proof.
  destruct (transport_takes_priority sample_404
              (JObject ClsObject [("status", JNumber (int 404))])
              (JNumber (int 404)) (EnumCode ASSET_NOT_FOUND)
              "insufficient funds" None)
    as (h & H & Hk & _).
  - split; reflexivity.
  - reflexivity.
  - reflexivity.
  - reflexivity.
  - exists h. split; [exact H|exact Hk].
Defined.

(** C10, as amended.  When the response is present (truthy) and its status
    is absent ([undefined]), the factory still returns from the transport
    branch: the kind is NETWORK_ERROR, the result is not retryable and its
    [statusCode] is [undefined], whatever the message contains.  (The
    hypothesis on [transport_text] says that the message converts to a
    string; the factory raises when it does not.) *)
Theorem absent_status
  (error response : JsValue) (text : string) (op : option string) :
  carries_response error response ->
  get response "status" = Return JUndefined ->
  transport_text error response = Return text ->
  exists h,
    createHeliusError error op = Return h /\
    code h = EnumCode NETWORK_ERROR /\
    retryable h = false /\
    statusCode h = JUndefined /\
    message h = text.
Proof.
  intros Hc Hs Ht.
  assert (Hk : transport_code JUndefined = Return (EnumCode NETWORK_ERROR))
    by reflexivity.
  rewrite (transport_branch _ _ _ _ _ op Hc Hs Hk Ht).
  eexists; split; [reflexivity|]. repeat split.
Qed.

Lemma absent_status_witness :
  exists h,
    createHeliusError sample_no_status None = Return h /\
    code h = EnumCode NETWORK_ERROR /\
    retryable h = false /\
    statusCode h = JUndefined /\
    message h = "insufficient funds".
Proof.
  apply (absent_status sample_no_status
           (JObject ClsObject [("data", JNull)]) "insufficient funds" None).
  - split; reflexivity.
  - reflexivity.
  - reflexivity.
Defined.

(** C10 fails as stated: a response whose status is the string ["429"]
    carries no numeric status, yet the table lookup, whose keys are
    strings, finds API_RATE_LIMIT, and the string is stored as
    [statusCode]. *)
Lemma string_status_counterexample :
  carries_response sample_string_status
    (JObject ClsObject [("status", JString "429")]) /\
  get (JObject ClsObject [("status", JString "429")]) "status"
    = Return (JString "429") /\
  (forall n, JString "429" <> JNumber n) /\
  createHeliusError sample_string_status None =
    Return (mkHeliusError (EnumCode API_RATE_LIMIT) "Too many requests"
              (JString "429") false None) /\
  ~ (exists h,
       createHeliusError sample_string_status None = Return h /\
       code h = EnumCode NETWORK_ERROR /\
       retryable h = false /\
       statusCode h = JUndefined).
Proof.
  repeat split; try discriminate.
  intros (h & H & Hk & _). vm_compute in H. injection H as <-.
  discriminate Hk.
Qed.

(** ** The business-rule branch *)

Lemma call_includes_string (m needle : string) :
  call_includes (JString m) needle = Return (string_includes m needle).
Proof. reflexivity. Qed.

(** What the factory returns when the response test fails and the derived
    message is a string. *)
Lemma business_branch (error : JsValue) (m : string) (op : option string) :
  no_response error ->
  derived_message error = Return (JString m) ->
  createHeliusError error op =
  Return (new_HeliusError (EnumCode (business_kind m)) m
            (only_operation op)).
Proof.
  intros (r & Hr & Hf) Hd. unfold createHeliusError, derived_message in *.
  rewrite Hr. cbn [bind]. rewrite Hf.
  destruct (get error "message") as [own|e]; [|discriminate Hd].
  cbn [bind] in *. rewrite Hd. cbn [bind].
  rewrite !call_includes_string. cbn [bind].
  unfold business_kind, business_rules.
  cbn [first_match existsb]. rewrite !orb_false_r.
  destruct (string_includes m "100,000 addresses"); cbn [orb bind].
  - reflexivity.
  - destruct (string_includes m "address limit"); [reflexivity|].
    cbn [bind].
    destruct (string_includes m "insufficient funds"); [reflexivity|].
    cbn [bind].
    destruct (string_includes m "simulation failed"); reflexivity.
Qed.

(** Conversely, whatever the business-rule branch returns was built from
    a derived message that is a string. *)
Lemma business_inversion (error : JsValue) (op : option string)
  (h : HeliusError) :
  no_response error ->
  createHeliusError error op = Return h ->
  exists m,
    derived_message error = Return (JString m) /\
    h = new_HeliusError (EnumCode (business_kind m)) m (only_operation op).
Proof.
  intros Hn H. destruct (derived_message error) as [d|e] eqn:Hd.
  - destruct d as [| | b | n | m | cls props | i];
      try (destruct Hn as (r & Hr & Hf);
           unfold createHeliusError, derived_message in *;
           rewrite Hr in H; cbn [bind] in H; rewrite Hf in H;
           destruct (get error "message") as [own|e]; [|discriminate Hd];
           cbn [bind] in *; rewrite Hd in H; discriminate H).
    exists m. split; [reflexivity|].
    rewrite (business_branch error m op Hn Hd) in H. congruence.
  - destruct Hn as (r & Hr & Hf).
    unfold createHeliusError, derived_message in *.
    rewrite Hr in H. cbn [bind] in H. rewrite Hf in H.
    destruct (get error "message") as [own|e']; [|discriminate H].
    cbn [bind] in *. rewrite Hd in H. discriminate H.
Qed.

(** C3.  With no response descriptor, the derived message string is tested
    against the rules in their fixed order and the first match wins:
    ["100,000 addresses"] or ["address limit"] gives WEBHOOK_ADDRESS_LIMIT,
    then ["insufficient funds"] gives INSUFFICIENT_FUNDS, then
    ["simulation failed"] gives TRANSACTION_SIMULATE_FAILED; a message
    that contains both ["address limit"] and ["insufficient funds"] is a
    WEBHOOK_ADDRESS_LIMIT. *)
Theorem business_rules_in_order
  (error : JsValue) (m : string) (op : option string) :
  no_response error ->
  derived_message error = Return (JString m) ->
  exists h,
    createHeliusError error op = Return h /\
    (contains m "100,000 addresses" \/ contains m "address limit" ->
     code h = EnumCode WEBHOOK_ADDRESS_LIMIT) /\
    (~ contains m "100,000 addresses" -> ~ contains m "address limit" ->
     contains m "insufficient funds" ->
     code h = EnumCode INSUFFICIENT_FUNDS) /\
    (~ contains m "100,000 addresses" -> ~ contains m "address limit" ->
     ~ contains m "insufficient funds" ->
     contains m "simulation failed" ->
     code h = EnumCode TRANSACTION_SIMULATE_FAILED) /\
    (contains m "address limit" -> contains m "insufficient funds" ->
     code h = EnumCode WEBHOOK_ADDRESS_LIMIT) /\
    code h = EnumCode (business_kind m).
Proof.
  intros Hn Hd. rewrite (business_branch error m op Hn Hd).
  eexists; split; [reflexivity|].
  cbn [new_HeliusError code].
  unfold business_kind, business_rules. cbn [first_match existsb].
  rewrite !orb_false_r.
  rewrite <- !string_includes_contains.
  destruct (string_includes m "100,000 addresses");
    destruct (string_includes m "address limit");
    destruct (string_includes m "insufficient funds");
    destruct (string_includes m "simulation failed");
    cbn [orb]; repeat split; intros; try reflexivity;
    try congruence; intuition congruence.
Qed.

Lemma business_rules_in_order_witness :
  exists h,
    createHeliusError sample_both None = Return h /\
    code h = EnumCode WEBHOOK_ADDRESS_LIMIT.
Proof.
  destruct (business_rules_in_order sample_both
              "address limit reached: insufficient funds" None)
    as (h & H & _ & _ & _ & _ & K).
  - exists JUndefined. split; reflexivity.
  - reflexivity.
  - exists h. split; [exact H|exact K].
Defined.

(** C8 fails as stated: a failure whose message field exists and is the
    empty string has no response descriptor and matches no rule, but the
    message of the result is the string conversion of the failure, not the
    message field: [||] falls back on every falsy message. *)
Lemma empty_message_counterexample :
  no_response sample_empty_message /\
  stated_message sample_empty_message = Return (JString EmptyString) /\
  first_match business_rules EmptyString = None /\
  createHeliusError sample_empty_message None =
    Return (mkHeliusError (EnumCode UNKNOWN_ERROR) "Error"
              JUndefined false None) /\
  ~ (exists h,
       createHeliusError sample_empty_message None = Return h /\
       message h = EmptyString).
Proof.
  split; [exists JUndefined; split; reflexivity|].
  repeat split.
  intros (h & H & Hm). vm_compute in H. injection H as <-.
  discriminate Hm.
Qed.

(** C8, as amended.  With no response descriptor, let the derived message
    be the failure's message field when that field is truthy and the
    failure's string conversion otherwise, and let it be a string.  Then
    the factory returns an error with that string as message, no
    [statusCode], not retryable, and the given operation; and its kind is
    UNKNOWN_ERROR when no business-rule substring occurs in the string. *)
Theorem fallback_unknown (error : JsValue) (m : string) (op : option string) :
  no_response error ->
  derived_message error = Return (JString m) ->
  exists h,
    createHeliusError error op = Return h /\
    message h = m /\
    statusCode h = JUndefined /\
    retryable h = false /\
    operation h = op /\
    (~ contains m "100,000 addresses" -> ~ contains m "address limit" ->
     ~ contains m "insufficient funds" -> ~ contains m "simulation failed" ->
     code h = EnumCode UNKNOWN_ERROR).
Proof.
  intros Hn Hd. rewrite (business_branch error m op Hn Hd).
  eexists; split; [reflexivity|].
  cbn [new_HeliusError code message statusCode retryable operation
       only_operation opt_statusCode opt_retryable opt_operation].
  repeat split.
  unfold business_kind, business_rules. cbn [first_match existsb].
  rewrite <- !string_includes_contains, !not_true_iff_false.
  intros -> -> -> ->. reflexivity.
Qed.

Lemma fallback_unknown_witness :
  exists h,
    createHeliusError (JObject ClsError [("message", JString "boom")])
      (Some "createWebhook") = Return h /\
    message h = "boom" /\
    code h = EnumCode UNKNOWN_ERROR.
Proof.
  destruct (fallback_unknown (JObject ClsError [("message", JString "boom")])
              "boom" (Some "createWebhook"))
    as (h & H & Hm & _ & _ & _ & K).
  - exists JUndefined. split; reflexivity.
  - reflexivity.
  - exists h. split; [exact H|]. split; [exact Hm|].
    apply K; rewrite <- string_includes_contains; discriminate.
Defined.

(** Nothing the business-rule branch returns has a status or is
    retryable. *)
Lemma business_branch_plain (error : JsValue) (op : option string)
  (h : HeliusError) :
  no_response error ->
  createHeliusError error op = Return h ->
  statusCode h = JUndefined /\ retryable h = false.
Proof.
  intros Hn H.
  destruct (business_inversion error op h Hn H) as (m & _ & ->).
  split; reflexivity.
Qed.

(** Whatever the factory returns was built by one of its two branches. *)
Lemma factory_cases (error : JsValue) (op : option string) (h : HeliusError) :
  createHeliusError error op = Return h ->
  (exists response status c text,
     carries_response error response /\
     get response "status" = Return status /\
     transport_code status = Return c /\
     transport_text error response = Return text /\
     h = new_HeliusError c text
           (mkOptions status
              (Some (array_includes retryable_statuses status)) op)) \/
  (exists m,
     no_response error /\
     derived_message error = Return (JString m) /\
     h = new_HeliusError (EnumCode (business_kind m)) m (only_operation op)).
Proof.
  intros H. destruct (get error "response") as [r|e] eqn:Hr.
  2:{ unfold createHeliusError in H. rewrite Hr in H. discriminate H. }
  destruct (to_boolean r) eqn:Ht.
  - left. destruct (status_returns r Ht) as [status Hs].
    destruct (transport_inversion error r status op h (conj Hr Ht) Hs H)
      as (c & text & Hk & Hx & ->).
    exists r, status, c, text. repeat split; assumption.
  - right. assert (Hn : no_response error) by (exists r; now split).
    destruct (business_inversion error op h Hn H) as (m & Hd & ->).
    exists m. repeat split; assumption.
Qed.

(** The constructor called with a message of any type stores the options
    as the typed constructor does. *)
Lemma new_HeliusError_any_inversion
  (c : CodeValue) (msg : JsValue) (options : Options) (h : HeliusError) :
  new_HeliusError_any c msg options = Return h ->
  exists text, super_message msg = Return text /\
               h = new_HeliusError c text options.
Proof.
  unfold new_HeliusError_any. destruct (super_message msg) as [text|e];
    [|discriminate]. cbn [bind]. intros [= <-]. eauto.
Qed.

(** C5.  However a [HeliusError] is made, by the factory through any of
    its branches or by the constructor directly, it is retryable only when
    its [statusCode] is one of 429, 500, 502, 503 or when the constructor
    was given [retryable: true]. *)
Theorem retryable_only_whitelisted (o : Origin) (h : HeliusError) :
  construct o = Return h ->
  retryable h = true ->
  whitelisted (statusCode h) \/
  exists c msg options,
    o = ByConstructor c msg options /\ opt_retryable options = Some true.
Proof.
  destruct o as [error op|c msg options]; cbn [construct]; intros H Hr.
  - left.
    destruct (factory_cases error op h H)
      as [(response & status & c & text & _ & _ & _ & _ & ->)
         |(m & _ & _ & ->)];
      cbn [new_HeliusError retryable statusCode only_operation
           opt_statusCode opt_retryable] in *; [|discriminate Hr].
    rewrite orb_false_r in Hr. now apply array_includes_whitelisted.
  - right. exists c, msg, options. split; [reflexivity|].
    destruct (new_HeliusError_any_inversion c msg options h H)
      as (text & _ & ->).
    cbn [new_HeliusError retryable] in Hr.
    destruct (opt_retryable options) as [[|]|]; try discriminate.
    reflexivity.
Qed.

Lemma retryable_only_whitelisted_witness :
  whitelisted (JNumber (int 503)) \/
  exists c msg options,
    ByFactory sample_503 None = ByConstructor c msg options /\
    opt_retryable options = Some true.
Proof.
  apply (retryable_only_whitelisted (ByFactory sample_503 None)
           (mkHeliusError (EnumCode API_REQUEST_FAILED) "insufficient funds"
              (JNumber (int 503)) true None)).
  - reflexivity.
  - reflexivity.
Defined.

(** ** Totality of the factory *)

(** C1.  The factory is not total: reading [error.response] raises a
    [TypeError] when the failure is [null] or [undefined], and the call
    [errorMessage.includes] raises one when the message of the failure is
    truthy and not a string. *)
Theorem factory_throws (op : option string) :
  createHeliusError JNull op =
    Throw (TypeError "Cannot read properties of null (reading 'response')") /\
  createHeliusError JUndefined op =
    Throw (TypeError "Cannot read properties of undefined (reading 'response')") /\
  createHeliusError (JObject ClsObject [("message", JNumber (int 42))]) op =
    Throw (TypeError "errorMessage.includes is not a function").
Proof. repeat split. Qed.

(** ** The methods and the predicates *)

(** C6.  [getUserMessage] returns the curated sentence for the kinds
    API_KEY_INVALID, API_RATE_LIMIT, WEBHOOK_ADDRESS_LIMIT and
    INSUFFICIENT_FUNDS and the stored message, unchanged, for every other
    kind.  It is a function of the instance alone and always returns. *)
Theorem getUserMessage_curated (h : HeliusError) :
  (code h = EnumCode API_KEY_INVALID ->
   getUserMessage h =
   "Invalid API key. Please check your API key in the Helius dashboard.") /\
  (code h = EnumCode API_RATE_LIMIT ->
   getUserMessage h =
   "Rate limit exceeded. Please wait before making more requests.") /\
  (code h = EnumCode WEBHOOK_ADDRESS_LIMIT ->
   getUserMessage h =
   "Webhook address limit exceeded. Maximum 100,000 addresses per webhook.") /\
  (code h = EnumCode INSUFFICIENT_FUNDS ->
   getUserMessage h = "Insufficient funds for this transaction.") /\
  (code h <> EnumCode API_KEY_INVALID ->
   code h <> EnumCode API_RATE_LIMIT ->
   code h <> EnumCode WEBHOOK_ADDRESS_LIMIT ->
   code h <> EnumCode INSUFFICIENT_FUNDS ->
   getUserMessage h = message h).
Proof.
  unfold getUserMessage.
  repeat split; try (intros ->; reflexivity).
  intros N1 N2 N3 N4.
  destruct (code h) as [[]|name]; try reflexivity; congruence.
Qed.

Lemma getUserMessage_curated_witness :
  getUserMessage
    (mkHeliusError (EnumCode API_RATE_LIMIT) "Too many requests"
       (JNumber (int 429)) true None) =
  "Rate limit exceeded. Please wait before making more requests." /\
  getUserMessage
    (mkHeliusError (EnumCode ASSET_NOT_FOUND) "Asset not found"
       (JNumber (int 404)) false None) = "Asset not found".
Proof.
  split.
  - apply (getUserMessage_curated
             (mkHeliusError (EnumCode API_RATE_LIMIT) "Too many requests"
                (JNumber (int 429)) true None)).
    reflexivity.
  - apply (getUserMessage_curated
             (mkHeliusError (EnumCode ASSET_NOT_FOUND) "Asset not found"
                (JNumber (int 404)) false None)); discriminate.
Defined.

(** C7.  [isRetryableError] returns on every value, never raising; it
    returns [true] exactly when the value is a [HeliusError] whose
    [isRetryable()] is [true], and [false] on every value that is not a
    [HeliusError]. *)
Theorem isRetryableError_spec (x : JsValue) :
  exists b,
    isRetryableError x = Return b /\
    (b = true <->
     isHeliusError x = true /\ call_isRetryable x = Return true) /\
    (isHeliusError x = false -> b = false).
Proof.
  unfold isRetryableError.
  destruct x as [| | b | n | s | cls props | h]; cbn [isHeliusError];
    try (exists false; repeat split; intros; try discriminate; tauto).
  exists (isRetryable h). cbn [call_isRetryable].
  split; [reflexivity|]. split; [split|discriminate].
  - intros ->. split; reflexivity.
  - intros [_ H]. now injection H.
Qed.

Lemma isRetryableError_spec_witness :
  isRetryableError (JString "timeout") = Return false /\
  isRetryableError
    (JInstance (mkHeliusError (EnumCode API_RATE_LIMIT) "slow down"
                  (JNumber (int 429)) true None)) = Return true.
Proof.
  split.
  - destruct (isRetryableError_spec (JString "timeout")) as (b & H & _ & F).
    rewrite H. f_equal. apply F. reflexivity.
  - destruct (isRetryableError_spec
                (JInstance (mkHeliusError (EnumCode API_RATE_LIMIT)
                              "slow down" (JNumber (int 429)) true None)))
      as (b & H & [_ T] & _).
    rewrite H. f_equal. apply T. split; reflexivity.
Defined.

(** The constructor called with a message of any type keeps the options
    whenever it returns. *)
Lemma constructor_any_keeps_options
  (c : CodeValue) (msg : JsValue)
  (status : JsValue) (flag : bool) (op : option string) (h : HeliusError) :
  new_HeliusError_any c msg (mkOptions status (Some flag) op) = Return h ->
  statusCode h = status /\
  retryable h = flag /\
  isRetryable h = flag /\
  operation h = op.
Proof.
  intros H.
  destruct (new_HeliusError_any_inversion _ _ _ _ H) as (text & _ & ->).
  unfold isRetryable.
  cbn [new_HeliusError statusCode retryable operation
       opt_statusCode opt_retryable opt_operation].
  rewrite orb_false_r. repeat split.
Qed.

(** C9.  A [HeliusError] constructed with explicit [statusCode],
    [retryable] and [operation] keeps the three values: the fields read
    back what was given and [isRetryable()] returns the given flag.  This
    holds for the constructor at its declared type, which always returns,
    and, whenever it returns, for the constructor given a message of any
    type. *)
Theorem constructor_keeps_options
  (c : CodeValue) (msg : string)
  (status : JsValue) (flag : bool) (op : option string) :
  let h := new_HeliusError c msg (mkOptions status (Some flag) op) in
  (statusCode h = status /\
   retryable h = flag /\
   isRetryable h = flag /\
   operation h = op) /\
  (forall (any : JsValue) (h' : HeliusError),
     new_HeliusError_any c any (mkOptions status (Some flag) op) = Return h' ->
     statusCode h' = status /\
     retryable h' = flag /\
     isRetryable h' = flag /\
     operation h' = op).
Proof.
  split.
  - cbn [new_HeliusError statusCode retryable operation isRetryable
         opt_statusCode opt_retryable opt_operation].
    unfold isRetryable. cbn [retryable].
    rewrite orb_false_r. repeat split.
  - intros any h'. apply constructor_any_keeps_options.
Qed.

Lemma constructor_keeps_options_witness :
  let h := mkHeliusError (EnumCode INVALID_INPUT) "Invalid address"
             (JNumber (int 400)) true (Some "getAsset") in
  statusCode h = JNumber (int 400) /\
  retryable h = true /\
  isRetryable h = true /\
  operation h = Some "getAsset".
Proof.
  apply (constructor_keeps_options (EnumCode INVALID_INPUT) "Invalid address"
           (JNumber (int 400)) true (Some "getAsset")).
Defined.

(** ** The examples of the specification, evaluated *)

Example webhook_limit_example :
  createHeliusError (thrown "Webhook exceeds 100,000 addresses") None =
  Return (mkHeliusError (EnumCode WEBHOOK_ADDRESS_LIMIT)
            "Webhook exceeds 100,000 addresses" JUndefined false None).
Proof. reflexivity. Qed.

Example insufficient_funds_example :
  createHeliusError (thrown "insufficient funds for rent") None =
  Return (mkHeliusError (EnumCode INSUFFICIENT_FUNDS)
            "insufficient funds for rent" JUndefined false None).
Proof. reflexivity. Qed.

Example simulation_failed_example :
  createHeliusError
    (thrown "transaction simulation failed: custom program error") None =
  Return (mkHeliusError (EnumCode TRANSACTION_SIMULATE_FAILED)
            "transaction simulation failed: custom program error"
            JUndefined false None).
Proof. reflexivity. Qed.

Example thrown_string_example :
  createHeliusError (JString "boom") (Some "getAsset") =
  Return (mkHeliusError (EnumCode UNKNOWN_ERROR) "boom" JUndefined false
            (Some "getAsset")).
Proof. reflexivity. Qed.

Example forbidden_example :
  createHeliusError
    (JObject ClsError
       [ ("message", JString "Request failed with status code 403");
         ("response", JObject ClsObject [("status", JNumber (int 403))]) ])
    None =
  Return (mkHeliusError (EnumCode NETWORK_ERROR)
            "Request failed with status code 403"
            (JNumber (int 403)) false None).
Proof. reflexivity. Qed.

Example body_error_example :
  createHeliusError sample_503 None =
  Return (mkHeliusError (EnumCode API_REQUEST_FAILED) "insufficient funds"
            (JNumber (int 503)) true None).
Proof. reflexivity. Qed.

Example predicates_example :
  isHeliusError (JString "boom") = false /\
  isHeliusError JNull = false /\
  isHeliusError (JObject ClsObject [("retryable", JBool true)]) = false /\
  isRetryableError (JObject ClsObject [("retryable", JBool true)])
    = Return false.
Proof. repeat split. Qed.

(** An object with an own property [toString] cannot be converted: the
    factory raises where it converts the failure, the status or the
    message, and returns when it needs no conversion. *)
Example unconvertible_failure_example :
  createHeliusError (JObject ClsObject [("toString", JNumber (int 5))]) None =
  Throw (TypeError "Cannot convert object to primitive value").
Proof. reflexivity. Qed.

Example unconvertible_status_example :
  createHeliusError
    (JObject ClsError
       [ ("message", JString "Request failed");
         ("response",
          JObject ClsObject
            [("status", JObject ClsObject [("toString", JNumber (int 5))])]) ])
    None =
  Throw (TypeError "Cannot convert object to primitive value").
Proof. reflexivity. Qed.

Example unconvertible_body_error_example :
  createHeliusError
    (JObject ClsError
       [ ("message", JString "Request failed");
         ("response",
          JObject ClsObject
            [ ("status", JNumber (int 500));
              ("data",
               JObject ClsObject
                 [("error",
                   JObject ClsObject [("toString", JNumber (int 5))])]) ]) ])
    None =
  Throw (TypeError "Cannot convert object to primitive value").
Proof. reflexivity. Qed.

Example unconverted_failure_example :
  createHeliusError
    (JObject ClsObject
       [("toString", JNumber (int 5)); ("message", JString "boom")])
    None =
  Return (mkHeliusError (EnumCode UNKNOWN_ERROR) "boom" JUndefined false None).
Proof. reflexivity. Qed.

(** * Further properties of the module *)

Lemma nonempty_truthy (s : string) :
  s <> EmptyString -> to_boolean (JString s) = true.
Proof.
  intros H. cbn [to_boolean]. apply negb_true_iff. now apply String.eqb_neq.
Qed.

(** The message of the transport branch, from what the factory reads. *)
Lemma transport_text_unfold
  (error response data body_error own : JsValue) :
  get response "data" = Return data ->
  get_optional data "error" = Return body_error ->
  get error "message" = Return own ->
  transport_text error response = super_message (js_or body_error own).
Proof.
  intros Hd Hb Ho. unfold transport_text, transport_message.
  rewrite Hd. cbn [bind]. rewrite Hb. cbn [bind]. rewrite Ho. reflexivity.
Qed.

(** ** The message of a transport failure *)

(** X1.  In the transport branch the server's text wins: when the body of
    the response has a non-empty string under [error], that string is the
    message of the result, whatever the failure's own message is.  (The
    hypothesis on [transport_code] says that the status converts to a
    property key; the factory raises when it does not.) *)
Theorem body_error_is_message
  (error response status data : JsValue) (c : CodeValue) (s : string)
  (op : option string) :
  carries_response error response ->
  get response "status" = Return status ->
  transport_code status = Return c ->
  get response "data" = Return data ->
  get_optional data "error" = Return (JString s) ->
  s <> EmptyString ->
  exists h, createHeliusError error op = Return h /\ message h = s.
Proof.
  intros Hc Hst Hk Hd Hb Hs.
  destruct (get_returns error "message" (get_not_nullish _ _ _ (proj1 Hc)))
    as [own Ho].
  assert (Ht : transport_text error response = Return s).
  { rewrite (transport_text_unfold _ _ _ _ _ Hd Hb Ho).
    unfold js_or. now rewrite (nonempty_truthy s Hs). }
  rewrite (transport_branch _ _ _ _ _ op Hc Hst Hk Ht).
  eexists; split; reflexivity.
Qed.

Lemma body_error_is_message_witness :
  exists h,
    createHeliusError sample_503 None = Return h /\
    message h = "insufficient funds".
Proof.
  apply (body_error_is_message sample_503
           (JObject ClsObject
              [ ("status", JNumber (int 503));
                ("data", JObject ClsObject
                           [("error", JString "insufficient funds")]) ])
           (JNumber (int 503))
           (JObject ClsObject [("error", JString "insufficient funds")])
           (EnumCode API_REQUEST_FAILED)).
  - split; reflexivity.
  - reflexivity.
  - reflexivity.
  - reflexivity.
  - reflexivity.
  - discriminate.
Defined.

(** X2.  When the response has no body ([data] is [undefined] or [null])
    or the body's [error] is falsy, the message of the result is the
    failure's own message.  (The hypothesis on [transport_code] says that
    the status converts to a property key.) *)
Theorem own_message_is_fallback
  (error response status data body_error : JsValue) (c : CodeValue)
  (m : string) (op : option string) :
  carries_response error response ->
  get response "status" = Return status ->
  transport_code status = Return c ->
  get response "data" = Return data ->
  get_optional data "error" = Return body_error ->
  to_boolean body_error = false ->
  get error "message" = Return (JString m) ->
  exists h, createHeliusError error op = Return h /\ message h = m.
Proof.
  intros Hc Hst Hk Hd Hb Hf Ho.
  assert (Ht : transport_text error response = Return m).
  { rewrite (transport_text_unfold _ _ _ _ _ Hd Hb Ho).
    unfold js_or. now rewrite Hf. }
  rewrite (transport_branch _ _ _ _ _ op Hc Hst Hk Ht).
  eexists; split; reflexivity.
Qed.

Lemma own_message_is_fallback_witness :
  exists h,
    createHeliusError sample_no_status None = Return h /\
    message h = "insufficient funds".
Proof.
  apply (own_message_is_fallback sample_no_status
           (JObject ClsObject [("data", JNull)]) JUndefined JNull JUndefined
           (EnumCode NETWORK_ERROR)).
  - split; reflexivity.
  - reflexivity.
  - reflexivity.
  - reflexivity.
  - reflexivity.
  - reflexivity.
  - reflexivity.
Defined.

(** X3.  When the body's [error] is a plain object without an own
    [toString], as in a JSON-RPC error reply, the message of the result is
    the conversion of that object to a string, ["[object Object]"]:
    neither the object's own description nor the failure's message is
    kept.  (The hypothesis on [transport_code] says that the status
    converts to a property key.) *)
Theorem body_error_object_is_opaque
  (error response status data : JsValue) (c : CodeValue)
  (props : list (string * JsValue)) (op : option string) :
  carries_response error response ->
  get response "status" = Return status ->
  transport_code status = Return c ->
  get response "data" = Return data ->
  get_optional data "error" = Return (JObject ClsObject props) ->
  has_own "toString" props = false ->
  exists h,
    createHeliusError error op = Return h /\
    message h = "[object Object]".
Proof.
  intros Hc Hst Hk Hd Hb Hp.
  destruct (get_returns error "message" (get_not_nullish _ _ _ (proj1 Hc)))
    as [own Ho].
  assert (Ht : transport_text error response = Return "[object Object]").
  { rewrite (transport_text_unfold _ _ _ _ _ Hd Hb Ho).
    unfold js_or. cbn [to_boolean super_message to_string].
    now rewrite Hp. }
  rewrite (transport_branch _ _ _ _ _ op Hc Hst Hk Ht).
  eexists; split; reflexivity.
Qed.

Lemma body_error_object_is_opaque_witness :
  exists h,
    createHeliusError sample_rpc_error None = Return h /\
    message h = "[object Object]".
Proof.
  assert (R : exists response status data c props,
             carries_response sample_rpc_error response /\
             get response "status" = Return status /\
             transport_code status = Return c /\
             get response "data" = Return data /\
             get_optional data "error" = Return (JObject ClsObject props) /\
             has_own "toString" props = false).
  { do 5 eexists. split; [split; reflexivity|].
    repeat (split; [reflexivity|]). reflexivity. }
  destruct R as (response & status & data & c & props
                 & Hc & Hs & Hk & Hd & Hb & Hp).
  exact (body_error_object_is_opaque sample_rpc_error response status data
           c props None Hc Hs Hk Hd Hb Hp).
Defined.

(** ** When the factory returns *)

(** X4.  The factory returns on every failure that is neither [undefined]
    nor [null], in which no object has an own property named [toString],
    and whose message, when the failure carries no response, is falsy or
    a string. *)
Theorem plain_failure_is_classified (error : JsValue) (op : option string) :
  nullish error = false ->
  plain error = true ->
  (no_response error ->
   forall own, get error "message" = Return own ->
               to_boolean own = true -> exists s, own = JString s) ->
  exists h, createHeliusError error op = Return h.
Proof.
  intros Hn Hp Hm.
  destruct (get_returns error "response" Hn) as [r Hr].
  destruct (get_returns error "message" Hn) as [own Ho].
  destruct (to_boolean r) eqn:Ht.
  - assert (Hc : carries_response error r) by now split.
    assert (Hpr : plain r = true) by exact (plain_get _ _ _ Hp Hr).
    destruct (status_returns r Ht) as [status Hs].
    destruct (plain_to_string status (plain_get _ _ _ Hpr Hs)) as [key Hk].
    destruct (get_returns r "data" (truthy_not_nullish _ Ht)) as [d Hd].
    destruct (get_optional_returns d "error") as [b Hb].
    assert (Hpm : plain (js_or b own) = true).
    { unfold js_or. destruct (to_boolean b).
      - exact (plain_get_optional _ _ _ (plain_get _ _ _ Hpr Hd) Hb).
      - exact (plain_get _ _ _ Hp Ho). }
    destruct (plain_super_message _ Hpm) as [text Hx].
    rewrite <- (transport_text_unfold _ _ _ _ _ Hd Hb Ho) in Hx.
    assert (Hkc : transport_code status = Return (code_of_key key))
      by (unfold transport_code; now rewrite Hk).
    rewrite (transport_branch _ _ _ _ _ op Hc Hs Hkc Hx). eauto.
  - assert (Hno : no_response error) by (exists r; now split).
    assert (Hd : exists m, derived_message error = Return (JString m)).
    { unfold derived_message. rewrite Ho. cbn [bind].
      destruct (to_boolean own) eqn:Hb.
      - destruct (Hm Hno own Ho Hb) as [s ->]. eauto.
      - destruct (plain_to_string error Hp) as [s ->]. cbn [bind]. eauto. }
    destruct Hd as [m Hd]. rewrite (business_branch error m op Hno Hd).
    eauto.
Qed.

Lemma plain_failure_is_classified_witness :
  exists h, createHeliusError sample_rpc_error (Some "getAsset") = Return h.
Proof.
  apply (plain_failure_is_classified sample_rpc_error (Some "getAsset")).
  - reflexivity.
  - reflexivity.
  - intros (r & Hr & Hf). injection Hr as <-. discriminate Hf.
Defined.

(** ** Classifying what was already classified *)

(** X5.  Passing a [HeliusError] through the factory again always
    returns, and the result has lost the status and the retry flag: its
    [statusCode] is [undefined], it is not retryable, and its kind comes
    from the text of the message alone (UNKNOWN_ERROR with the message
    ["HeliusError"] when the message was empty). *)
Theorem reclassified_loses_status (h : HeliusError) (op : option string) :
  exists h',
    createHeliusError (JInstance h) op = Return h' /\
    statusCode h' = JUndefined /\
    retryable h' = false /\
    operation h' = op /\
    (message h <> EmptyString ->
     message h' = message h /\
     code h' = EnumCode (business_kind (message h))) /\
    (message h = EmptyString ->
     message h' = "HeliusError" /\ code h' = EnumCode UNKNOWN_ERROR).
Proof.
  assert (Hn : no_response (JInstance h))
    by (exists JUndefined; split; reflexivity).
  destruct (String.eqb_spec (message h) EmptyString) as [E|E].
  - assert (Hd : derived_message (JInstance h)
                 = Return (JString "HeliusError"))
      by (unfold derived_message; cbn; rewrite E; reflexivity).
    rewrite (business_branch _ _ op Hn Hd).
    eexists; split; [reflexivity|].
    do 3 (split; [reflexivity|]).
    split; intros E'; [now elim E'|split; reflexivity].
  - assert (Hd : derived_message (JInstance h)
                 = Return (JString (message h))).
    { unfold derived_message. cbn [get String.eqb Ascii.eqb Bool.eqb bind].
      now rewrite (nonempty_truthy _ E). }
    rewrite (business_branch _ _ op Hn Hd).
    eexists; split; [reflexivity|].
    do 3 (split; [reflexivity|]).
    split; intros E'; [split; reflexivity|now elim E].
Qed.

Lemma reclassified_loses_status_witness :
  exists h',
    createHeliusError (JInstance sample_rate_limited) None = Return h' /\
    retryable h' = false /\
    code h' = EnumCode UNKNOWN_ERROR.
Proof.
  destruct (reclassified_loses_status sample_rate_limited None)
    as (h' & H & _ & Hr & _ & K & _).
  exists h'. split; [exact H|]. split; [exact Hr|].
  apply K. discriminate.
Defined.

(** X6.  What the business-rule branch returns is a fixed point of the
    factory: classifying it again, under the same operation, returns it
    unchanged, provided its message is not empty. *)
Theorem business_result_is_stable
  (error : JsValue) (op : option string) (h : HeliusError) :
  no_response error ->
  createHeliusError error op = Return h ->
  message h <> EmptyString ->
  createHeliusError (JInstance h) op = Return h.
Proof.
  intros Hn H Hm.
  destruct (business_inversion error op h Hn H) as (m & _ & ->).
  cbn [new_HeliusError message] in Hm.
  apply business_branch; [exists JUndefined; split; reflexivity|].
  unfold derived_message. cbn [get String.eqb Ascii.eqb Bool.eqb bind].
  cbn [new_HeliusError message].
  now rewrite (nonempty_truthy _ Hm).
Qed.

Lemma business_result_is_stable_witness :
  createHeliusError
    (JInstance (mkHeliusError (EnumCode INSUFFICIENT_FUNDS)
                  "insufficient funds for rent" JUndefined false None))
    None =
  Return (mkHeliusError (EnumCode INSUFFICIENT_FUNDS)
            "insufficient funds for rent" JUndefined false None).
Proof.
  apply (business_result_is_stable (thrown "insufficient funds for rent")).
  - exists JUndefined. split; reflexivity.
  - reflexivity.
  - discriminate.
Defined.

(** ** The kinds the factory assigns *)

(** The table lookup yields one of the five kinds the table and its
    default name, or an inherited member. *)
Lemma code_of_key_range (key : string) :
  code_of_key key = EnumCode API_KEY_INVALID \/
  code_of_key key = EnumCode API_RATE_LIMIT \/
  code_of_key key = EnumCode ASSET_NOT_FOUND \/
  code_of_key key = EnumCode API_REQUEST_FAILED \/
  code_of_key key = EnumCode NETWORK_ERROR \/
  exists name, code_of_key key = ProtoMember name.
Proof.
  unfold code_of_key, statusCodeMap_get, statusCodeMap. cbn [lookup].
  repeat match goal with
    | |- context [String.eqb key ?k] =>
        destruct (String.eqb key k); [auto 7|]
    end.
  destruct (existsb (String.eqb key) object_prototype_members); eauto 7.
Qed.

Lemma transport_code_range (status : JsValue) (c : CodeValue) :
  transport_code status = Return c ->
  c = EnumCode API_KEY_INVALID \/
  c = EnumCode API_RATE_LIMIT \/
  c = EnumCode ASSET_NOT_FOUND \/
  c = EnumCode API_REQUEST_FAILED \/
  c = EnumCode NETWORK_ERROR \/
  exists name, c = ProtoMember name.
Proof.
  unfold transport_code. destruct (to_string status) as [key|e];
    [|discriminate]. cbn [bind]. intros [= <-]. apply code_of_key_range.
Qed.

Lemma business_kind_range (m : string) :
  business_kind m = WEBHOOK_ADDRESS_LIMIT \/
  business_kind m = INSUFFICIENT_FUNDS \/
  business_kind m = TRANSACTION_SIMULATE_FAILED \/
  business_kind m = UNKNOWN_ERROR.
Proof.
  unfold business_kind, business_rules. cbn [first_match].
  repeat match goal with
    | |- context [existsb ?f ?l] => destruct (existsb f l); [auto|]
    end.
  auto.
Qed.

(** X7.  Three members of the enumeration are never assigned by the
    factory: whatever it returns is not a WEBHOOK_NOT_FOUND, a
    TRANSACTION_FAILED or an INVALID_INPUT. *)
Theorem factory_never_assigns
  (error : JsValue) (op : option string) (h : HeliusError) :
  createHeliusError error op = Return h ->
  code h <> EnumCode WEBHOOK_NOT_FOUND /\
  code h <> EnumCode TRANSACTION_FAILED /\
  code h <> EnumCode INVALID_INPUT.
Proof.
  intros H.
  destruct (factory_cases error op h H)
    as [(response & status & c & text & _ & _ & Hk & _ & ->)
       |(m & _ & _ & ->)];
    cbn [new_HeliusError code].
  - destruct (transport_code_range status c Hk)
      as [E|[E|[E|[E|[E|[name E]]]]]]; rewrite E;
      repeat split; discriminate.
  - destruct (business_kind_range m) as [E|[E|[E|E]]]; rewrite E;
      repeat split; discriminate.
Qed.

Lemma factory_never_assigns_witness :
  EnumCode API_REQUEST_FAILED <> EnumCode WEBHOOK_NOT_FOUND /\
  EnumCode API_REQUEST_FAILED <> EnumCode TRANSACTION_FAILED /\
  EnumCode API_REQUEST_FAILED <> EnumCode INVALID_INPUT.
Proof.
  apply (factory_never_assigns sample_503 None
           (mkHeliusError (EnumCode API_REQUEST_FAILED) "insufficient funds"
              (JNumber (int 503)) true None)).
  reflexivity.
Defined.

(** X8.  A retryable result of the factory is either an API_RATE_LIMIT
    with status 429 or an API_REQUEST_FAILED with status 500, 502 or 503;
    no other kind the factory assigns is ever retryable. *)
Theorem retryable_kinds
  (error : JsValue) (op : option string) (h : HeliusError) :
  createHeliusError error op = Return h ->
  retryable h = true ->
  (statusCode h = JNumber (int 429) /\ code h = EnumCode API_RATE_LIMIT) \/
  ((statusCode h = JNumber (int 500) \/ statusCode h = JNumber (int 502) \/
    statusCode h = JNumber (int 503)) /\
   code h = EnumCode API_REQUEST_FAILED).
Proof.
  intros H Hr.
  destruct (factory_cases error op h H)
    as [(response & status & c & text & _ & _ & Hk & _ & ->)
       |(m & _ & _ & ->)];
    cbn [new_HeliusError code retryable statusCode only_operation
         opt_statusCode opt_retryable] in *; [|discriminate Hr].
  rewrite orb_false_r in Hr.
  apply array_includes_whitelisted in Hr.
  destruct Hr as [->|[->|[->| ->]]];
    rewrite transport_code_number in Hk; injection Hk as <-;
    [left|right..]; split; auto.
Qed.

Lemma retryable_kinds_witness :
  (JNumber (int 503) = JNumber (int 429) /\
   EnumCode API_REQUEST_FAILED = EnumCode API_RATE_LIMIT) \/
  ((JNumber (int 503) = JNumber (int 500) \/
    JNumber (int 503) = JNumber (int 502) \/
    JNumber (int 503) = JNumber (int 503)) /\
   EnumCode API_REQUEST_FAILED = EnumCode API_REQUEST_FAILED).
Proof.
  apply (retryable_kinds sample_503 None
           (mkHeliusError (EnumCode API_REQUEST_FAILED) "insufficient funds"
              (JNumber (int 503)) true None)).
  - reflexivity.
  - reflexivity.
Defined.

(** X9.  The retry decision end to end: [isRetryableError] accepts the
    result of the factory exactly when the failure carried a response
    whose status is the number 429, 500, 502 or 503. *)
Theorem retry_decision
  (error : JsValue) (op : option string) (h : HeliusError) :
  createHeliusError error op = Return h ->
  (isRetryableError (JInstance h) = Return true <->
   exists response status,
     carries_response error response /\
     get response "status" = Return status /\
     whitelisted status).
Proof.
  intros H. cbn [isRetryableError isHeliusError call_isRetryable].
  unfold isRetryable. split.
  - intros [= Hr].
    destruct (factory_cases error op h H)
      as [(response & status & c & text & Hc & Hs & _ & _ & ->)
         |(m & _ & _ & ->)];
      cbn [new_HeliusError retryable only_operation opt_retryable] in Hr;
      [|discriminate Hr].
    rewrite orb_false_r in Hr.
    exists response, status. split; [exact Hc|]. split; [exact Hs|].
    now apply array_includes_whitelisted.
  - intros (response & status & Hc & Hs & Hw).
    destruct (transport_inversion error response status op h Hc Hs H)
      as (c & text & _ & _ & ->).
    cbn [new_HeliusError retryable opt_retryable].
    rewrite orb_false_r. f_equal. now apply array_includes_whitelisted.
Qed.

Lemma retry_decision_witness :
  isRetryableError
    (JInstance (mkHeliusError (EnumCode API_REQUEST_FAILED)
                  "insufficient funds" (JNumber (int 503)) true None))
  = Return true.
Proof.
  apply (retry_decision sample_503 None).
  - reflexivity.
  - exists (JObject ClsObject
              [ ("status", JNumber (int 503));
                ("data", JObject ClsObject
                           [("error", JString "insufficient funds")]) ]),
           (JNumber (int 503)).
    split; [split; reflexivity|]. split; [reflexivity|].
    right. right. right. reflexivity.
Defined.

(** ** The operation label *)

(** X10.  The operation is a label and nothing more: the result carries
    the operation it was given, and classifying the same failure under
    another operation changes that field alone. *)
Theorem operation_is_a_label
  (error : JsValue) (op op' : option string) (h : HeliusError) :
  createHeliusError error op = Return h ->
  operation h = op /\
  createHeliusError error op' =
  Return (mkHeliusError (code h) (message h) (statusCode h) (retryable h) op').
Proof.
  intros H.
  destruct (factory_cases error op h H)
    as [(response & status & c & text & Hc & Hs & Hk & Ht & ->)
       |(m & Hn & Hd & ->)].
  - rewrite (transport_branch _ _ _ _ _ op' Hc Hs Hk Ht).
    split; reflexivity.
  - rewrite (business_branch error m op' Hn Hd). split; reflexivity.
Qed.

Lemma operation_is_a_label_witness :
  createHeliusError sample_503 (Some "getAsset") =
  Return (mkHeliusError (EnumCode API_REQUEST_FAILED) "insufficient funds"
            (JNumber (int 503)) true (Some "getAsset")).
Proof.
  apply (operation_is_a_label sample_503 None (Some "getAsset")
           (mkHeliusError (EnumCode API_REQUEST_FAILED) "insufficient funds"
              (JNumber (int 503)) true None)).
  reflexivity.
Defined.

(** ** Thrown values that are not objects *)

(** X11.  A thrown boolean, number or string is classified by its string
    conversion: the conversion and the factory both return, the message
    is [String(v)], the kind is what the business rules give that text,
    and the result has no status and is not retryable. *)
Theorem primitive_is_classified_by_text (v : JsValue) (op : option string) :
  primitive v = true ->
  exists text,
    to_string v = Return text /\
    createHeliusError v op =
    Return (mkHeliusError (EnumCode (business_kind text)) text
              JUndefined false op).
Proof.
  intros Hp.
  assert (Hn : no_response v)
    by (exists JUndefined; destruct v; try discriminate Hp;
        split; reflexivity).
  assert (Ht : exists text, to_string v = Return text)
    by (destruct v as [| | [|] | n | s | cls props | h];
        try discriminate Hp; cbn [to_string]; eauto).
  destruct Ht as [text Ht]. exists text. split; [exact Ht|].
  assert (Hd : derived_message v = Return (JString text))
    by (unfold derived_message; destruct v; try discriminate Hp;
        cbn [get bind to_boolean]; rewrite Ht; reflexivity).
  now rewrite (business_branch v _ op Hn Hd).
Qed.

Lemma primitive_is_classified_by_text_witness :
  exists text,
    to_string (JNumber (int 404)) = Return text /\
    createHeliusError (JNumber (int 404)) None =
    Return (mkHeliusError (EnumCode (business_kind text)) text
              JUndefined false None).
Proof.
  apply (primitive_is_classified_by_text (JNumber (int 404)) None).
  reflexivity.
Defined.

(** ** What the user reads *)

(** X12.  After classification of a response with a numeric status the
    user reads the curated sentence for 401 and for 429, whatever the
    server or the client said, and the message of the result, unchanged,
    for every other status.  (The hypothesis on [transport_text] says
    that the message handed to the constructor converts to a string.) *)
Theorem user_message_of_status
  (error response : JsValue) (n : Num) (text : string) (op : option string) :
  carries_response error response ->
  get response "status" = Return (JNumber n) ->
  transport_text error response = Return text ->
  exists h,
    createHeliusError error op = Return h /\
    (n = int 401 ->
     getUserMessage h =
     "Invalid API key. Please check your API key in the Helius dashboard.") /\
    (n = int 429 ->
     getUserMessage h =
     "Rate limit exceeded. Please wait before making more requests.") /\
    (n <> int 401 -> n <> int 429 ->
     getUserMessage h = message h /\ message h = text).
Proof.
  intros Hc Hs Ht.
  rewrite (transport_branch _ _ _ _ _ op Hc Hs (transport_code_number n) Ht).
  eexists; split; [reflexivity|].
  unfold getUserMessage. cbn [new_HeliusError code message].
  split; [intros ->; reflexivity|]. split; [intros ->; reflexivity|].
  intros N1 N2. split; [|reflexivity].
  destruct n as [| neg | z p]; try reflexivity.
  unfold kind_of_status.
  destruct (Z.eqb_spec z 401) as [E|_];
    [elim N1; now apply Int_ext|].
  destruct (Z.eqb_spec z 429) as [E|_];
    [elim N2; now apply Int_ext|].
  repeat match goal with
    | |- context [Z.eqb z ?k] => destruct (Z.eqb z k)
    end; reflexivity.
Qed.

Lemma user_message_of_status_witness :
  exists h,
    createHeliusError sample_503 None = Return h /\
    getUserMessage h = "insufficient funds".
Proof.
  destruct (user_message_of_status sample_503
              (JObject ClsObject
                 [ ("status", JNumber (int 503));
                   ("data", JObject ClsObject
                              [("error", JString "insufficient funds")]) ])
              (int 503) "insufficient funds" None)
    as (h & H & _ & _ & K).
  - split; reflexivity.
  - reflexivity.
  - reflexivity.
  - exists h. split; [exact H|].
    destruct K as [K1 K2]; try discriminate. now rewrite K1.
Defined.

(** X14.  After classification of a failure without response the user
    reads the address-limit sentence when the derived message contains
    ["100,000 addresses"] or ["address limit"], otherwise the
    insufficient-funds sentence when it contains ["insufficient funds"],
    and otherwise the derived message itself. *)
Theorem user_message_of_text
  (error : JsValue) (m : string) (op : option string) :
  no_response error ->
  derived_message error = Return (JString m) ->
  exists h,
    createHeliusError error op = Return h /\
    (contains m "100,000 addresses" \/ contains m "address limit" ->
     getUserMessage h =
     "Webhook address limit exceeded. Maximum 100,000 addresses per webhook.") /\
    (~ contains m "100,000 addresses" -> ~ contains m "address limit" ->
     contains m "insufficient funds" ->
     getUserMessage h = "Insufficient funds for this transaction.") /\
    (~ contains m "100,000 addresses" -> ~ contains m "address limit" ->
     ~ contains m "insufficient funds" ->
     getUserMessage h = m).
Proof.
  intros Hn Hd. rewrite (business_branch error m op Hn Hd).
  eexists; split; [reflexivity|].
  unfold getUserMessage.
  cbn [new_HeliusError code message].
  unfold business_kind, business_rules. cbn [first_match existsb].
  rewrite !orb_false_r.
  rewrite <- !string_includes_contains.
  destruct (string_includes m "100,000 addresses");
    destruct (string_includes m "address limit");
    destruct (string_includes m "insufficient funds");
    destruct (string_includes m "simulation failed");
    cbn [orb]; repeat split; intros; try reflexivity;
    try congruence; intuition congruence.
Qed.

Lemma user_message_of_text_witness :
  exists h,
    createHeliusError (thrown "insufficient funds for rent") None
      = Return h /\
    getUserMessage h = "Insufficient funds for this transaction.".
Proof.
  destruct (user_message_of_text (thrown "insufficient funds for rent")
              "insufficient funds for rent" None)
    as (h & H & _ & K & _).
  - exists JUndefined. split; reflexivity.
  - reflexivity.
  - exists h. split; [exact H|].
    apply K; rewrite <- string_includes_contains;
      solve [discriminate | reflexivity].
Defined.

(** ** The enumeration *)

(** X13.  The members of the enumeration stand for pairwise distinct
    strings, none of them empty: a code is recognised by its string, and a
    code found in the table is never mistaken for a missing entry. *)
Theorem code_strings_distinct (c1 c2 : HeliusErrorCode) :
  c1 <> c2 ->
  code_string c1 <> code_string c2 /\
  to_boolean (JString (code_string c1)) = true.
Proof.
  intros N. split.
  - destruct c1, c2; try discriminate; now elim N.
  - now destruct c1.
Qed.

Lemma code_strings_distinct_witness :
  code_string NETWORK_ERROR <> code_string UNKNOWN_ERROR /\
  to_boolean (JString (code_string NETWORK_ERROR)) = true.
Proof.
  apply (code_strings_distinct NETWORK_ERROR UNKNOWN_ERROR). discriminate.
Defined.
